(** * Store boundary setter (src/App.tsx)

    The component keeps four pieces of React state (store name, center,
    polygon coordinates, radius limit) and reacts to map clicks and to the
    buttons and inputs below the map.  This development embeds that state
    and its event handlers, with JavaScript numbers as IEEE 754 binary64
    floats, and verifies the boundary rules against them. *)

From Stdlib Require Import String Ascii Bool Arith Lia ZArith Floats List.
From Stdlib Require Import Permutation.
Import ListNotations.

Set Warnings "-inexact-float".

(** ** JavaScript numbers *)

Module Js.

(** A JavaScript [number] is a binary64 float; [<=], [>=] and [>] are the
    IEEE comparisons, false as soon as one side is NaN. *)
Definition number : Set := float.

Definition le (x y : number) : bool := PrimFloat.leb x y.
Definition ge (x y : number) : bool := PrimFloat.leb y x.
Definition gt (x y : number) : bool := PrimFloat.ltb y x.

(** [Math.min(x, y)]: NaN when either argument is NaN, and -0 is below +0. *)
Definition Math_min (x y : number) : number :=
  if is_nan x || is_nan y then nan
  else if PrimFloat.ltb x y then x
  else if PrimFloat.ltb y x then y
  else match classify x with NZero => x | _ => y end.

(** [Math.max(x, y)]: NaN when either argument is NaN, and +0 is above -0. *)
Definition Math_max (x y : number) : number :=
  if is_nan x || is_nan y then nan
  else if PrimFloat.ltb y x then x
  else if PrimFloat.ltb x y then y
  else match classify x with PZero => x | _ => y end.

(** [xs.slice(0, -1)]: all elements but the last; the empty array stays
    empty. *)
Definition slice_0_minus1 {A : Type} (xs : list A) : list A := removelast xs.

End Js.

(** ** Coordinates *)

(** [interface Coordinates { lat: number; lng: number }] *)
Record Coordinates : Set := mkCoordinates { lat : Js.number; lng : Js.number }.

(** Leaflet's [LatLngTuple], [[lat, lng]]. *)
Definition LatLngTuple : Set := (Js.number * Js.number)%type.

(** [L.latLng] applied to a tuple. *)
Definition toLatLng (t : LatLngTuple) : Coordinates :=
  {| lat := fst t; lng := snd t |}.

(** ** The part of Leaflet the component calls *)

Module Leaflet.

(** Modelled from the spec: Leaflet's [LatLngBounds] is library code that is
    not under src/.  The spec (§4.1, §9) describes what the component
    obtains from [L.polygon(..).getBounds().contains(..)] as the polygon's
    axis-aligned bounding box, "the polygon's rectangular bounds".  A bounds
    object is a south-west and a north-east corner; one that was never
    extended has no corners. *)
Definition LatLngBounds : Set := option (Coordinates * Coordinates).

(** Modelled from the spec: [bounds.extend(p)] of Leaflet, missing from src/;
    the south-west corner keeps the least latitude and longitude seen, the
    north-east corner the greatest. *)
Definition extend (b : LatLngBounds) (p : Coordinates) : LatLngBounds :=
  match b with
  | None => Some (p, p)
  | Some (sw, ne) =>
      Some ({| lat := Js.Math_min (lat p) (lat sw);
               lng := Js.Math_min (lng p) (lng sw) |},
            {| lat := Js.Math_max (lat p) (lat ne);
               lng := Js.Math_max (lng p) (lng ne) |})
  end.

(** Modelled from the spec: [L.polygon(latlngs).getBounds()] of Leaflet,
    missing from src/; the bounds extended by each vertex in turn. *)
Definition getBounds (latlngs : list LatLngTuple) : LatLngBounds :=
  fold_left (fun b t => extend b (toLatLng t)) latlngs None.

(** Modelled from the spec: [bounds.contains(p)] of Leaflet for a point [p],
    missing from src/; the point lies between the two corners, borders
    included.  The component only asks bounds that have corners (see
    [getBounds_has_corners] below). *)
Definition contains (b : LatLngBounds) (p : Coordinates) : bool :=
  match b with
  | None => false
  | Some (sw, ne) =>
      Js.ge (lat p) (lat sw) && Js.le (lat p) (lat ne) &&
      Js.ge (lng p) (lng sw) && Js.le (lng p) (lng ne)
  end.

End Leaflet.

(** ** Component state *)

Record AppState : Set := mkAppState {
  storeName : string;
  center : Coordinates;
  polygonCoordinates : list LatLngTuple;
  radiusLimit : Js.number
}.

Definition defaultCoordinates : Coordinates :=
  {| lat := 51.4998819%float; lng := (-0.0992492)%float |}.

(** The state of a freshly mounted component. *)
Definition initialState : AppState :=
  {| storeName := "Terrys Cafe London";
     center := defaultCoordinates;
     polygonCoordinates := [];
     radiusLimit := 5000%float |}.

Definition setStoreName (v : string) (s : AppState) : AppState :=
  {| storeName := v; center := center s;
     polygonCoordinates := polygonCoordinates s; radiusLimit := radiusLimit s |}.

Definition setCenter (c : Coordinates) (s : AppState) : AppState :=
  {| storeName := storeName s; center := c;
     polygonCoordinates := polygonCoordinates s; radiusLimit := radiusLimit s |}.

Definition setPolygonCoordinates (p : list LatLngTuple) (s : AppState) : AppState :=
  {| storeName := storeName s; center := center s;
     polygonCoordinates := p; radiusLimit := radiusLimit s |}.

Definition setRadiusLimit (r : Js.number) (s : AppState) : AppState :=
  {| storeName := storeName s; center := center s;
     polygonCoordinates := polygonCoordinates s; radiusLimit := r |}.

(** ** What a handler shows or logs *)

Record ToastMessage : Set := mkToast { variant : option string; title : string }.

(** [{ latitude: lat, longitude: lng }], an element of the boundary that
    saving builds and logs. *)
Record BoundaryPoint : Set := mkBoundaryPoint {
  latitude : Js.number;
  longitude : Js.number
}.

Inductive Effect : Set :=
| Toast (t : ToastMessage)
| ConsoleLog (boundary : list BoundaryPoint).

Definition dquote : string := String (ascii_of_nat 34) EmptyString.

Definition toastOnlyFivePoints : ToastMessage :=
  {| variant := Some "destructive"%string;
     title := ("Polygon can only have 5 points. Click " ++ dquote ++
               "Undo Last Point" ++ dquote ++ " to adjust.")%string |}.

Definition toastOutsideBoundary : ToastMessage :=
  {| variant := Some "destructive"%string;
     title := "Point is outside the allowed boundary." |}.

Definition toastSetFivePoints : ToastMessage :=
  {| variant := Some "destructive"%string;
     title := "Set polygon with 5 points" |}.

Definition toastCenterOutside : ToastMessage :=
  {| variant := Some "destructive"%string;
     title := "The store location must be inside the polygon boundary. Please adjust the points." |}.

Definition toastSaved : ToastMessage :=
  {| variant := None; title := "Success! Store saved." |}.

(** ** Event handlers *)

Inductive CenterKey : Set := KeyLat | KeyLng.

Section Handlers.

(** [a.distanceTo(b)] of Leaflet, in metres: library code outside src/,
    taken as a parameter. *)
Variable distanceTo : Coordinates -> Coordinates -> Js.number.

(** The [click] handler of [MapClickHandler]. *)
Definition MapClickHandler_click (latlng : Coordinates) (s : AppState)
  : AppState * list Effect :=
  let distance := distanceTo latlng (center s) in
  if (length (polygonCoordinates s) <? 5) && Js.le distance (radiusLimit s)
  then (setPolygonCoordinates
          (polygonCoordinates s ++ [(lat latlng, lng latlng)]) s, [])
  else if 5 <=? length (polygonCoordinates s)
  then (s, [Toast toastOnlyFivePoints])
  else (s, [Toast toastOutsideBoundary]).

Definition isCenterInsidePolygon (s : AppState) : bool :=
  if length (polygonCoordinates s) <? 3 then false
  else
    let polygonLayer := Leaflet.getBounds (polygonCoordinates s) in
    let centerPoint := {| lat := lat (center s); lng := lng (center s) |} in
    Leaflet.contains polygonLayer centerPoint.

Definition handleSavePolygon (s : AppState) : AppState * list Effect :=
  if negb (length (polygonCoordinates s) =? 5)
  then (s, [Toast toastSetFivePoints])
  else if negb (isCenterInsidePolygon s)
  then (s, [Toast toastCenterOutside])
  else
    let boundary :=
      map (fun t => {| latitude := fst t; longitude := snd t |})
          (polygonCoordinates s) in
    (* the catch branch cannot be reached: neither call in the try throws *)
    (s, [ConsoleLog boundary; Toast toastSaved]).

Definition handleUndoLastPoint (s : AppState) : AppState :=
  setPolygonCoordinates (Js.slice_0_minus1 (polygonCoordinates s)) s.

Definition handleClearAllPoints (s : AppState) : AppState :=
  setPolygonCoordinates [] s.

(** [handleCenterChange(key)(e)]: [value] is [None] for an empty input
    (a falsy [e.target.value]) and [Some (parseFloat e.target.value)]
    otherwise. *)
Definition handleCenterChange (key : CenterKey) (value : option Js.number)
    (s : AppState) : AppState :=
  let v := match value with Some x => x | None => 0%float end in
  setCenter
    (match key with
     | KeyLat => {| lat := v; lng := lng (center s) |}
     | KeyLng => {| lat := lat (center s); lng := v |}
     end) s.

(** The events the component reacts to. *)
Inductive Event : Set :=
| MapClick (latlng : Coordinates)
| SaveClicked
| UndoClicked
| ClearClicked
| StoreNameInput (v : string)
| RadiusInput (v : Js.number)          (* Number(e.target.value) *)
| CenterInput (key : CenterKey) (value : option Js.number)
| GeoPosition (coords : Coordinates).  (* getCurrentPosition callback *)

Definition handle (e : Event) (s : AppState) : AppState * list Effect :=
  match e with
  | MapClick latlng => MapClickHandler_click latlng s
  | SaveClicked => handleSavePolygon s
  | UndoClicked => (handleUndoLastPoint s, [])
  | ClearClicked => (handleClearAllPoints s, [])
  | StoreNameInput v => (setStoreName v s, [])
  | RadiusInput v => (setRadiusLimit v s, [])
  | CenterInput key value => (handleCenterChange key value s, [])
  | GeoPosition coords => (setCenter coords s, [])
  end.

Definition step (e : Event) (s : AppState) : AppState := fst (handle e s).

(** The state after a sequence of events, oldest first. *)
Definition run (events : list Event) (s : AppState) : AppState :=
  fold_left (fun st e => step e st) events s.

(** Every state passed through, the starting one first. *)
Fixpoint trace (events : list Event) (s : AppState) : list AppState :=
  match events with
  | [] => [s]
  | e :: rest => s :: trace rest (step e s)
  end.

End Handlers.

(** ** Geometry used to judge the containment test *)

Module Geometry.

Local Open Scope float_scope.

(** The ray from [point] towards growing longitude meets the edge [a b]. *)
Definition rayMeetsEdge (point : Coordinates) (a b : LatLngTuple) : bool :=
  xorb (lat point <? fst a) (lat point <? fst b) &&
  (lng point <? (snd b - snd a) * (lat point - fst a) / (fst b - fst a) + snd a).

(** The edges of the closed ring: each vertex with its successor, the last
    with the first. *)
Definition ringEdges (polygon : list LatLngTuple)
  : list (LatLngTuple * LatLngTuple) :=
  match polygon with
  | [] => []
  | first :: rest => combine polygon (rest ++ [first])
  end.

(** The containment test in the spec's words (§4.1), to set against the one
    of the component: "standard ray-casting ... treating the sequence as an
    implicitly closed ring (last vertex connects back to first)", false on
    fewer than 3 vertices.  The point is inside when the ray meets an odd
    number of edges. *)
Definition pointInPolygon_spec (point : Coordinates)
    (polygon : list LatLngTuple) : bool :=
  if (length polygon <? 3)%nat then false
  else
    fold_left (fun inside e => xorb inside (rayMeetsEdge point (fst e) (snd e)))
              (ringEdges polygon) false.

(** Twice the signed area of the triangle [a b c]. *)
Definition orient (a b c : LatLngTuple) : Js.number :=
  (snd b - snd a) * (fst c - fst a) - (fst b - fst a) * (snd c - snd a).

(** The open segments [a b] and [c d] cross in a single interior point. *)
Definition segmentsCross (a b c d : LatLngTuple) : bool :=
  (orient a b c * orient a b d <? 0) && (orient c d a * orient c d b <? 0).

(** Some two edges of the ring cross. *)
Definition hasCrossingEdges (polygon : list LatLngTuple) : bool :=
  existsb (fun e =>
    existsb (fun f => segmentsCross (fst e) (snd e) (fst f) (snd f))
            (ringEdges polygon))
    (ringEdges polygon).

(** Every vertex lies on the side [lat + lng <= bound] of a line. *)
Definition allBelowLine (bound : Js.number) (polygon : list LatLngTuple) : bool :=
  forallb (fun v => fst v + snd v <=? bound) polygon.

End Geometry.

(** ** Sample sessions *)

Module Sample.

Local Open Scope float_scope.

(** A stand-in for Leaflet's [distanceTo] on which the handlers can be run:
    the metres spanned by the latitude gap alone, at 111194 m per degree
    (just under the 111194.93 m of Leaflet's sphere of radius 6371000 m).
    Between equal coordinates it is 0, as the great-circle distance is, and
    it never exceeds the great-circle distance: a click it places outside
    the radius is outside by great-circle distance as well. *)
Definition meridianGap (a b : Coordinates) : Js.number :=
  111194 * abs (lat a - lat b).

(** A square with its north-east corner cut off, and a store in the cut-off
    corner: inside the square, outside the pentagon. *)
Definition cutCorner : list LatLngTuple :=
  [ (51.5, -0.125); (51.53125, -0.125); (51.53125, -0.1171875);
    (51.5078125, -0.09375); (51.5, -0.09375) ].

Definition storeInCutCorner : AppState :=
  {| storeName := "Terrys Cafe London";
     center := {| lat := 51.5234375; lng := -0.1015625 |};
     polygonCoordinates := cutCorner;
     radiusLimit := 5000 |}.

(** The same boundary with the store well inside it. *)
Definition storeInsideCutCorner : AppState :=
  {| storeName := "Terrys Cafe London";
     center := {| lat := 51.5078125; lng := -0.1171875 |};
     polygonCoordinates := cutCorner;
     radiusLimit := 5000 |}.

(** The same boundary once more, under another name and around another
    point of its bounding box. *)
Definition otherStore : AppState :=
  {| storeName := "Corner Bakery";
     center := {| lat := 51.515625; lng := -0.109375 |};
     polygonCoordinates := cutCorner;
     radiusLimit := 5000 |}.

(** Four of the five points, with the store north of all of them. *)
Definition fourPoints : AppState :=
  {| storeName := "Terrys Cafe London";
     center := {| lat := 51.5625; lng := -0.109375 |};
     polygonCoordinates :=
       [ (51.5, -0.125); (51.53125, -0.125); (51.53125, -0.1171875);
         (51.5078125, -0.09375) ];
     radiusLimit := 5000 |}.

(** Five clicks on the store itself. *)
Definition fiveTimesTheStore : AppState :=
  {| storeName := "Terrys Cafe London";
     center := {| lat := 51.5; lng := -0.125 |};
     polygonCoordinates := repeat (51.5, -0.125) 5;
     radiusLimit := 5000 |}.

(** A ring whose first edge crosses its third. *)
Definition bowtie : AppState :=
  {| storeName := "Terrys Cafe London";
     center := {| lat := 51.5078125; lng := -0.125 |};
     polygonCoordinates :=
       [ (51.484375, -0.140625); (51.515625, -0.109375);
         (51.515625, -0.1328125); (51.484375, -0.1171875);
         (51.4765625, -0.125) ];
     radiusLimit := 5000 |}.

(** Two points whose bounding box holds the store. *)
Definition twoPoints : AppState :=
  {| storeName := "Terrys Cafe London";
     center := {| lat := 51.5; lng := -0.125 |};
     polygonCoordinates := [ (51.484375, -0.140625); (51.515625, -0.109375) ];
     radiusLimit := 5000 |}.

(** The session after one click on the store itself, judged by
    [meridianGap], and after the latitude input was then emptied, which
    moves the center to latitude 0. *)
Definition movedStore : AppState :=
  run meridianGap [MapClick defaultCoordinates; CenterInput KeyLat None]
      initialState.

(** A click some 7 km north of the default center. *)
Definition farNorth : Coordinates := {| lat := 51.5625; lng := -0.125 |}.

End Sample.

(** ** Notions used to state further properties *)

(** Every coordinate of every vertex is a number (no NaN among them). *)
Definition allNumbers (polygon : list LatLngTuple) : Prop :=
  Forall (fun v => is_nan (fst v) = false /\ is_nan (snd v) = false) polygon.

(** [sw] and [ne] are the least and greatest latitude and longitude found
    among the vertices: each of the four is taken from some vertex, and no
    vertex lies beyond them. *)
Definition cornersOf (polygon : list LatLngTuple) (sw ne : Coordinates) : Prop :=
  (exists v, In v polygon /\ lat sw = fst v) /\
  (exists v, In v polygon /\ lng sw = snd v) /\
  (exists v, In v polygon /\ lat ne = fst v) /\
  (exists v, In v polygon /\ lng ne = snd v) /\
  Forall (fun v => Js.le (lat sw) (fst v) = true /\
                   Js.le (lng sw) (snd v) = true /\
                   Js.le (fst v) (lat ne) = true /\
                   Js.le (snd v) (lng ne) = true) polygon.

(** The point has some vertex to its south and some to its north, some to
    its west and some to its east (each possibly level with it). *)
Definition inBoundingBox (p : Coordinates) (polygon : list LatLngTuple) : Prop :=
  (exists v, In v polygon /\ Js.le (fst v) (lat p) = true) /\
  (exists v, In v polygon /\ Js.le (lat p) (fst v) = true) /\
  (exists v, In v polygon /\ Js.le (snd v) (lng p) = true) /\
  (exists v, In v polygon /\ Js.le (lng p) (snd v) = true).

(** The points clicked on the map in the course of the events, as the click
    handler would store them. *)
Definition clickedPoints (events : list Event) : list LatLngTuple :=
  flat_map (fun e => match e with
                     | MapClick latlng => [(lat latlng, lng latlng)]
                     | _ => []
                     end) events.

(** The event edits neither the center nor the radius limit. *)
Definition keepsCenterAndRadius (e : Event) : bool :=
  match e with
  | RadiusInput _ | CenterInput _ _ | GeoPosition _ => false
  | _ => true
  end.

(** Every vertex is within the radius limit of the center, by the
    comparison the click handler makes. *)
Definition allWithinRadius
    (distanceTo : Coordinates -> Coordinates -> Js.number) (s : AppState) : Prop :=
  Forall (fun v => Js.le (distanceTo (toLatLng v) (center s)) (radiusLimit s) = true)
         (polygonCoordinates s).

Module Scenario.

Local Open Scope float_scope.

(** A fresh component whose radius input produced NaN. *)
Definition nanRadius : AppState := setRadiusLimit nan initialState.

(** The cut-corner boundary with the store north of its bounding box. *)
Definition storeNorthOfBox : AppState :=
  {| storeName := "Terrys Cafe London";
     center := {| lat := 51.5625; lng := -0.109375 |};
     polygonCoordinates := Sample.cutCorner;
     radiusLimit := 5000 |}.

(** The cut-corner boundary with the store on its third vertex. *)
Definition storeOnVertex : AppState :=
  {| storeName := "Terrys Cafe London";
     center := {| lat := 51.53125; lng := -0.1171875 |};
     polygonCoordinates := Sample.cutCorner;
     radiusLimit := 5000 |}.

(** Three points around the store. *)
Definition threePoints : AppState :=
  {| storeName := "Terrys Cafe London";
     center := {| lat := 51.5; lng := -0.125 |};
     polygonCoordinates :=
       [ (51.484375, -0.140625); (51.515625, -0.109375);
         (51.515625, -0.1328125) ];
     radiusLimit := 5000 |}.

(** A point about 1 km north-east of the store of [threePoints]. *)
Definition nearby : Coordinates := {| lat := 51.5078125; lng := -0.1171875 |}.

(** A point more than 11 km north of the store of [Sample.storeInCutCorner]. *)
Definition farAway : Coordinates := {| lat := 51.625; lng := -0.125 |}.

(** A click on the store, a save attempt, a click too far north, an undo and
    the first click again. *)
Definition clicksAndUndo : list Event :=
  [ MapClick defaultCoordinates; SaveClicked; MapClick Sample.farNorth;
    UndoClicked; MapClick defaultCoordinates ].

End Scenario.

(** * Properties *)

(** ** Comparisons of JavaScript numbers *)

Lemma SFcompare_antisym (x y : spec_float) :
  SFcompare y x = option_map CompOpp (SFcompare x y).
Proof.
  destruct x as [sx| sx| |sx mx ex], y as [sy| sy| |sy my ey]; simpl;
    try reflexivity;
    try (destruct sx; reflexivity);
    try (destruct sy; reflexivity);
    try (destruct sx, sy; reflexivity).
  f_equal.
  rewrite (Z.compare_antisym ex ey).
  change (Pos.compare_cont Eq my mx) with (Pos.compare my mx).
  change (Pos.compare_cont Eq mx my) with (Pos.compare mx my).
  rewrite (Pos.compare_antisym mx my).
  destruct sx, sy; try reflexivity;
    destruct (ex ?= ey)%Z; simpl; try reflexivity;
    destruct (mx ?= my)%positive; reflexivity.
Qed.

(** Two numbers that are not NaN are comparable. *)
Lemma not_nan_comparable (x y : Js.number) :
  is_nan x = false -> is_nan y = false ->
  exists c, SFcompare (Prim2SF x) (Prim2SF y) = Some c.
Proof.
  unfold is_nan. intros Hx Hy.
  apply negb_false_iff in Hx, Hy.
  rewrite eqb_spec in Hx, Hy. unfold SFeqb in *.
  destruct (Prim2SF x), (Prim2SF y); simpl in *; try discriminate; eauto.
Qed.

(** [x > y] excludes [x <= y]. *)
Lemma gt_not_le (x y : Js.number) : Js.gt x y = true -> Js.le x y = false.
Proof.
  unfold Js.gt, Js.le. rewrite ltb_spec, leb_spec. unfold SFltb, SFleb.
  rewrite (SFcompare_antisym (Prim2SF y) (Prim2SF x)).
  destruct (SFcompare (Prim2SF y) (Prim2SF x)) as [[ | | ]|]; simpl; congruence.
Qed.

(** Away from NaN, [x <= y] holds as soon as [x > y] fails. *)
Lemma not_gt_le (x y : Js.number) :
  is_nan x = false -> is_nan y = false ->
  Js.gt x y = false -> Js.le x y = true.
Proof.
  intros Hx Hy. destruct (not_nan_comparable y x Hy Hx) as [c Hc].
  unfold Js.gt, Js.le. rewrite ltb_spec, leb_spec. unfold SFltb, SFleb.
  rewrite (SFcompare_antisym (Prim2SF y) (Prim2SF x)), Hc.
  destruct c; simpl; congruence.
Qed.

(** With a NaN on either side, [<=] fails. *)
Lemma le_nan (x y : Js.number) :
  is_nan x = true \/ is_nan y = true -> Js.le x y = false.
Proof.
  unfold is_nan, Js.le. rewrite leb_spec, !eqb_spec. unfold SFleb, SFeqb.
  intros [H | H]; apply negb_true_iff in H;
    destruct (Prim2SF x), (Prim2SF y); simpl in *; try reflexivity;
    try discriminate;
    repeat match goal with b : bool |- _ => destruct b end;
    simpl in *; try discriminate.
  all: try (rewrite Z.compare_refl, Pos.compare_cont_refl in H; discriminate).
Qed.

(** ** Arrays *)

Lemma slice_0_minus1_length {A : Type} (xs : list A) :
  length (Js.slice_0_minus1 xs) = pred (length xs).
Proof.
  unfold Js.slice_0_minus1.
  induction xs as [| x [| y ys] IH]; simpl in *; auto.
Qed.

Lemma slice_0_minus1_snoc {A : Type} (xs : list A) (x : A) :
  Js.slice_0_minus1 (xs ++ [x]) = xs.
Proof. unfold Js.slice_0_minus1. apply removelast_last. Qed.

(** ** Bounds *)

Lemma extend_has_corners (b : Leaflet.LatLngBounds) (p : Coordinates) :
  exists sw ne, Leaflet.extend b p = Some (sw, ne).
Proof. destruct b as [[sw ne]|]; simpl; eauto. Qed.

(** The bounds of a polygon with a vertex have corners: the containment test
    never reads the corners of an empty bounds object. *)
Lemma getBounds_has_corners (latlngs : list LatLngTuple) :
  latlngs <> [] -> exists sw ne, Leaflet.getBounds latlngs = Some (sw, ne).
Proof.
  unfold Leaflet.getBounds.
  destruct latlngs as [| t rest]; [congruence | intros _; simpl].
  generalize (toLatLng t, toLatLng t).
  induction rest as [| u rest IH]; intros [sw ne]; simpl; eauto.
Qed.

(** ** The click rule, the five-vertex bound and the save checks *)

Section Properties.

Variable distanceTo : Coordinates -> Coordinates -> Js.number.

Local Abbreviation click := (MapClickHandler_click distanceTo).

(** The three branches of the click handler, told apart by what decides
    them. *)
Lemma click_too_many (latlng : Coordinates) (s : AppState) :
  5 <= length (polygonCoordinates s) ->
  click latlng s = (s, [Toast toastOnlyFivePoints]).
Proof.
  intros Hlen. unfold MapClickHandler_click.
  apply Nat.ltb_ge in Hlen as Hlt. apply Nat.leb_le in Hlen.
  rewrite Hlt, Hlen. reflexivity.
Qed.

Lemma click_outside (latlng : Coordinates) (s : AppState) :
  length (polygonCoordinates s) < 5 ->
  Js.le (distanceTo latlng (center s)) (radiusLimit s) = false ->
  click latlng s = (s, [Toast toastOutsideBoundary]).
Proof.
  intros Hlen Hfar. unfold MapClickHandler_click.
  rewrite Hfar, andb_false_r.
  apply Nat.leb_gt in Hlen. rewrite Hlen. reflexivity.
Qed.

Lemma click_accepted (latlng : Coordinates) (s : AppState) :
  length (polygonCoordinates s) < 5 ->
  Js.le (distanceTo latlng (center s)) (radiusLimit s) = true ->
  click latlng s =
    (setPolygonCoordinates
       (polygonCoordinates s ++ [(lat latlng, lng latlng)]) s, []).
Proof.
  intros Hlen Hnear. unfold MapClickHandler_click.
  apply Nat.ltb_lt in Hlen. rewrite Hlen, Hnear. reflexivity.
Qed.

(** C2. A click is answered in this order: with five or more vertices
    already there, the "only 5 points" notice and the session as it was,
    whatever the distance; otherwise, when the distance to the center
    exceeds the radius limit, the "outside the allowed boundary" notice and
    the session as it was; otherwise nothing is shown and the session has
    the clicked point appended at the end of its vertices, the earlier
    vertices, the center, the radius limit and the store name being kept.
    (The last case needs the distance and the radius limit to be numbers:
    against a NaN the handler's [<=] fails although [>] fails too.) *)
Theorem click_rule_order (latlng : Coordinates) (s : AppState) :
  (5 <= length (polygonCoordinates s) ->
     click latlng s = (s, [Toast toastOnlyFivePoints])) /\
  (length (polygonCoordinates s) < 5 ->
   Js.gt (distanceTo latlng (center s)) (radiusLimit s) = true ->
     click latlng s = (s, [Toast toastOutsideBoundary])) /\
  (length (polygonCoordinates s) < 5 ->
   Js.gt (distanceTo latlng (center s)) (radiusLimit s) = false ->
   is_nan (distanceTo latlng (center s)) = false ->
   is_nan (radiusLimit s) = false ->
     snd (click latlng s) = [] /\
     polygonCoordinates (fst (click latlng s))
       = polygonCoordinates s ++ [(lat latlng, lng latlng)] /\
     center (fst (click latlng s)) = center s /\
     radiusLimit (fst (click latlng s)) = radiusLimit s /\
     storeName (fst (click latlng s)) = storeName s).
Proof.
  split; [| split].
  - apply click_too_many.
  - intros Hlen Hgt. apply click_outside; [exact Hlen |].
    apply gt_not_le. exact Hgt.
  - intros Hlen Hgt Hd Hr.
    rewrite click_accepted; [| exact Hlen | apply not_gt_le; assumption].
    simpl. repeat split; reflexivity.
Qed.

(** X14. Against a NaN distance or radius limit the handler's [<=] fails,
    and a click on a polygon of fewer than 5 vertices is refused as outside
    the boundary. *)
Lemma click_nan_refused (latlng : Coordinates) (s : AppState) :
  length (polygonCoordinates s) < 5 ->
  is_nan (distanceTo latlng (center s)) = true \/
  is_nan (radiusLimit s) = true ->
  click latlng s = (s, [Toast toastOutsideBoundary]).
Proof.
  intros Hlen Hnan. apply click_outside; [exact Hlen |].
  apply le_nan. exact Hnan.
Qed.

(** A handler never leaves more than five vertices behind. *)
Lemma step_at_most_five (e : Event) (s : AppState) :
  length (polygonCoordinates s) <= 5 ->
  length (polygonCoordinates (step distanceTo e s)) <= 5.
Proof.
  intros Hs. destruct e; unfold step; simpl; try exact Hs.
  - destruct (Nat.lt_ge_cases (length (polygonCoordinates s)) 5) as [Hlt | Hge].
    + destruct (Js.le (distanceTo latlng (center s)) (radiusLimit s)) eqn:Hle.
      * rewrite click_accepted by assumption. simpl.
        rewrite length_app. simpl. lia.
      * rewrite click_outside by assumption. exact Hs.
    + rewrite click_too_many by assumption. exact Hs.
  - unfold handleSavePolygon.
    destruct (negb _); [exact Hs |]. destruct (negb _); exact Hs.
  - rewrite slice_0_minus1_length. lia.
  - lia.
Qed.

Lemma trace_invariant (P : AppState -> Prop) :
  (forall e s, P s -> P (step distanceTo e s)) ->
  forall events s, P s -> Forall P (trace distanceTo events s).
Proof.
  intros Hstep events.
  induction events as [| e rest IH]; intros s Hs; simpl.
  - constructor; [exact Hs | constructor].
  - constructor; [exact Hs |]. apply IH, Hstep, Hs.
Qed.

Lemma run_invariant (P : AppState -> Prop) :
  (forall e s, P s -> P (step distanceTo e s)) ->
  forall events s, P s -> P (run distanceTo events s).
Proof.
  intros Hstep events. unfold run.
  induction events as [| e rest IH]; intros s Hs; simpl.
  - exact Hs.
  - apply IH, Hstep, Hs.
Qed.

(** C3. Starting with no vertex, whatever the events (clicks, undo, clear,
    and also save and the inputs), every state passed through, the last one
    included, has between 0 and 5 vertices. *)
Theorem at_most_five_vertices (name : string) (c : Coordinates)
    (r : Js.number) (events : list Event) :
  let empty := {| storeName := name; center := c;
                  polygonCoordinates := []; radiusLimit := r |} in
  Forall (fun s => 0 <= length (polygonCoordinates s) <= 5)
         (trace distanceTo events empty) /\
  0 <= length (polygonCoordinates (run distanceTo events empty)) <= 5.
Proof.
  intros empty.
  assert (Hall : Forall (fun s => 0 <= length (polygonCoordinates s) <= 5)
                        (trace distanceTo events empty)).
  { apply trace_invariant.
    - intros e s [_ Hs]. split; [lia |]. apply step_at_most_five, Hs.
    - simpl. lia. }
  split; [exact Hall |].
  apply (run_invariant (fun s => 0 <= length (polygonCoordinates s) <= 5)).
  - intros e s [_ Hs]. split; [lia |]. apply step_at_most_five, Hs.
  - simpl. lia.
Qed.

(** What a successful save hands over: the polygon's vertices, each as a
    [{ latitude, longitude }] object, in the polygon's order. *)
Lemma save_succeeds (s : AppState) :
  length (polygonCoordinates s) = 5 ->
  isCenterInsidePolygon s = true ->
  handleSavePolygon s =
    (s, [ConsoleLog (map (fun t => {| latitude := fst t; longitude := snd t |})
                         (polygonCoordinates s));
         Toast toastSaved]).
Proof.
  intros Hlen Hin. unfold handleSavePolygon.
  rewrite Hlen, Hin. reflexivity.
Qed.

Lemma save_incomplete (s : AppState) :
  length (polygonCoordinates s) <> 5 ->
  handleSavePolygon s = (s, [Toast toastSetFivePoints]).
Proof.
  intros Hlen. unfold handleSavePolygon.
  apply Nat.eqb_neq in Hlen. rewrite Hlen. reflexivity.
Qed.

Lemma save_center_outside (s : AppState) :
  length (polygonCoordinates s) = 5 ->
  isCenterInsidePolygon s = false ->
  handleSavePolygon s = (s, [Toast toastCenterOutside]).
Proof.
  intros Hlen Hout. unfold handleSavePolygon.
  rewrite Hlen, Hout. reflexivity.
Qed.

Lemma boundary_round_trip (polygon : list LatLngTuple) :
  map (fun b => (latitude b, longitude b))
      (map (fun t => {| latitude := fst t; longitude := snd t |}) polygon)
  = polygon.
Proof.
  induction polygon as [| [la lo] rest IH]; simpl; [reflexivity |].
  rewrite IH. reflexivity.
Qed.

(** C4, as amended. With 5 vertices and a center that passes the containment
    test, saving hands over the boundary and shows the success notice: the
    boundary is the 5 vertices in insertion order, each as a
    [{ latitude, longitude }] object, and nothing else (any session with the
    same vertices hands over the same, whatever its center and store name);
    the session itself, center, radius, vertices and store name, is left as
    it was. *)
Theorem save_hands_over_boundary (s : AppState) :
  length (polygonCoordinates s) = 5 ->
  isCenterInsidePolygon s = true ->
  exists boundary : list BoundaryPoint,
    handleSavePolygon s = (s, [ConsoleLog boundary; Toast toastSaved]) /\
    length boundary = 5 /\
    map (fun b => (latitude b, longitude b)) boundary = polygonCoordinates s /\
    (forall s' : AppState,
       polygonCoordinates s' = polygonCoordinates s ->
       isCenterInsidePolygon s' = true ->
       snd (handleSavePolygon s') = [ConsoleLog boundary; Toast toastSaved]).
Proof.
  intros Hlen Hin.
  exists (map (fun t => {| latitude := fst t; longitude := snd t |})
              (polygonCoordinates s)).
  split; [apply save_succeeds; assumption |].
  split; [rewrite length_map; exact Hlen |].
  split; [apply boundary_round_trip |].
  intros s' Hsame Hin'.
  rewrite save_succeeds by (rewrite ?Hsame; assumption).
  rewrite Hsame. reflexivity.
Qed.

(** C5. Whenever the number of vertices is not 5, saving only shows the
    "Set polygon with 5 points" notice and changes nothing; this is decided
    before the containment test, so it is also the answer when the center is
    not contained; and it is the answer right after "Clear All Points". *)
Theorem save_needs_five_points (s : AppState) :
  (length (polygonCoordinates s) <> 5 ->
     handleSavePolygon s = (s, [Toast toastSetFivePoints])) /\
  (length (polygonCoordinates s) <> 5 ->
   isCenterInsidePolygon s = false ->
     snd (handleSavePolygon s) <> [Toast toastCenterOutside]) /\
  handleSavePolygon (handleClearAllPoints s) =
    (handleClearAllPoints s, [Toast toastSetFivePoints]).
Proof.
  split; [apply save_incomplete | split].
  - intros Hlen _. rewrite save_incomplete by exact Hlen. simpl.
    intros H. injection H as H. discriminate H.
  - apply save_incomplete. simpl. discriminate.
Qed.

(** C7. Editing the center (one coordinate through its input, or both from
    the geolocation callback) or the radius changes that field alone: the
    vertices stay exactly as they were, in number and in value, wherever
    they lie with respect to the new center and radius, and nothing is
    shown. *)
Theorem center_and_radius_edits_keep_vertices (s : AppState)
    (key : CenterKey) (value : option Js.number) (coords : Coordinates)
    (r : Js.number) :
  (let s' := handleCenterChange key value s in
   handle distanceTo (CenterInput key value) s = (s', []) /\
   polygonCoordinates s' = polygonCoordinates s /\
   radiusLimit s' = radiusLimit s /\ storeName s' = storeName s) /\
  (let s' := setCenter coords s in
   handle distanceTo (GeoPosition coords) s = (s', []) /\
   center s' = coords /\
   polygonCoordinates s' = polygonCoordinates s /\
   radiusLimit s' = radiusLimit s /\ storeName s' = storeName s) /\
  (let s' := setRadiusLimit r s in
   handle distanceTo (RadiusInput r) s = (s', []) /\
   radiusLimit s' = r /\
   polygonCoordinates s' = polygonCoordinates s /\
   center s' = center s /\ storeName s' = storeName s).
Proof.
  split; [| split].
  - destruct key; simpl; repeat split; reflexivity.
  - simpl. repeat split; reflexivity.
  - simpl. repeat split; reflexivity.
Qed.

(** C8. With fewer than 3 vertices the containment test answers false; it
    does so before any bounds are built, so nothing can fail. *)
Theorem fewer_than_three_vertices_not_inside (s : AppState) :
  length (polygonCoordinates s) < 3 ->
  isCenterInsidePolygon s = false.
Proof.
  intros Hlen. unfold isCenterInsidePolygon.
  apply Nat.ltb_lt in Hlen. rewrite Hlen. reflexivity.
Qed.

(** C6, as amended. In a session of at most 5 vertices whose last vertex is
    [p], and where [p] is within the current radius limit of the current
    center, undoing the last point and clicking [p] again gives back the
    session as it was, vertex sequence included. *)
Theorem undo_then_click_restores (s : AppState) (p : Coordinates)
    (before : list LatLngTuple) :
  polygonCoordinates s = before ++ [(lat p, lng p)] ->
  length (polygonCoordinates s) <= 5 ->
  Js.le (distanceTo p (center s)) (radiusLimit s) = true ->
  click p (handleUndoLastPoint s) = (s, []).
Proof.
  intros Hlast Hlen Hnear.
  rewrite click_accepted.
  - destruct s as [name c polygon r]. simpl in *. subst polygon.
    unfold handleUndoLastPoint, setPolygonCoordinates. simpl.
    rewrite slice_0_minus1_snoc. reflexivity.
  - simpl. rewrite slice_0_minus1_length, Hlast, length_app in *. simpl in *. lia.
  - exact Hnear.
Qed.

(** X15. A click that was accepted can be undone and made again, as long as
    the center and the radius limit are left alone: the second click is
    judged against the same distance and limit as the first. *)
Lemma accepted_click_can_be_redone (latlng : Coordinates) (s : AppState) :
  length (polygonCoordinates s) < 5 ->
  Js.le (distanceTo latlng (center s)) (radiusLimit s) = true ->
  click latlng (handleUndoLastPoint (fst (click latlng s)))
    = (fst (click latlng s), []).
Proof.
  intros Hlen Hnear.
  rewrite (click_accepted latlng s Hlen Hnear). simpl fst.
  unfold handleUndoLastPoint. simpl polygonCoordinates.
  rewrite slice_0_minus1_snoc.
  rewrite click_accepted; [reflexivity | exact Hlen | exact Hnear].
Qed.

Lemma run_cons (e : Event) (events : list Event) (s : AppState) :
  run distanceTo (e :: events) s = run distanceTo events (step distanceTo e s).
Proof. reflexivity. Qed.

(** The cut-corner session is reached from a fresh component: the center is
    set to the store, then the five vertices are clicked in order, all of
    them within 5000 m of the store. *)
Lemma cut_corner_reachable :
  Forall (fun v => Js.le (distanceTo (toLatLng v)
                                     (center Sample.storeInCutCorner))
                         5000%float = true) Sample.cutCorner ->
  run distanceTo
      (GeoPosition (center Sample.storeInCutCorner)
         :: map (fun v => MapClick (toLatLng v)) Sample.cutCorner)
      initialState
  = Sample.storeInCutCorner.
Proof.
  intros H. unfold Sample.cutCorner in H.
  repeat (apply Forall_cons_iff in H; destruct H as [? H]).
  unfold Sample.cutCorner. simpl map.
  rewrite run_cons. unfold step at 1. simpl handle. simpl fst.
  repeat (rewrite run_cons; unfold step at 1; simpl handle;
          rewrite click_accepted; [simpl fst | simpl; lia | assumption]).
  reflexivity.
Qed.

End Properties.

(** ** The rules on sample sessions *)

Lemma click_rule_order_witness :
  (Js.gt (Sample.meridianGap Scenario.farAway (center Sample.storeInCutCorner))
         (radiusLimit Sample.storeInCutCorner) = true /\
   MapClickHandler_click Sample.meridianGap Scenario.farAway
     Sample.storeInCutCorner
     = (Sample.storeInCutCorner, [Toast toastOnlyFivePoints])) /\
  (Js.gt (Sample.meridianGap (center Sample.storeInCutCorner)
            (center Sample.storeInCutCorner))
         (radiusLimit Sample.storeInCutCorner) = false /\
   MapClickHandler_click Sample.meridianGap (center Sample.storeInCutCorner)
     Sample.storeInCutCorner
     = (Sample.storeInCutCorner, [Toast toastOnlyFivePoints])) /\
  MapClickHandler_click Sample.meridianGap Sample.farNorth initialState
    = (initialState, [Toast toastOutsideBoundary]) /\
  (snd (MapClickHandler_click Sample.meridianGap Scenario.nearby
          Scenario.threePoints) = [] /\
   polygonCoordinates
     (fst (MapClickHandler_click Sample.meridianGap Scenario.nearby
             Scenario.threePoints))
     = [ (51.484375, -0.140625); (51.515625, -0.109375);
         (51.515625, -0.1328125); (51.5078125, -0.1171875) ]%float /\
   center (fst (MapClickHandler_click Sample.meridianGap Scenario.nearby
                  Scenario.threePoints))
     = {| lat := 51.5; lng := -0.125 |}%float /\
   radiusLimit (fst (MapClickHandler_click Sample.meridianGap Scenario.nearby
                       Scenario.threePoints))
     = 5000%float /\
   storeName (fst (MapClickHandler_click Sample.meridianGap Scenario.nearby
                     Scenario.threePoints))
     = "Terrys Cafe London"%string).
Proof.
  split; [| split; [| split]].
  - split; [vm_compute; reflexivity |].
    apply (proj1 (click_rule_order Sample.meridianGap Scenario.farAway
                    Sample.storeInCutCorner)).
    simpl. lia.
  - split; [vm_compute; reflexivity |].
    apply (proj1 (click_rule_order Sample.meridianGap
                    (center Sample.storeInCutCorner) Sample.storeInCutCorner)).
    simpl. lia.
  - apply (proj1 (proj2 (click_rule_order Sample.meridianGap Sample.farNorth
                           initialState))).
    + simpl. lia.
    + vm_compute. reflexivity.
  - apply (proj2 (proj2 (click_rule_order Sample.meridianGap Scenario.nearby
                           Scenario.threePoints))).
    + simpl. lia.
    + vm_compute. reflexivity.
    + vm_compute. reflexivity.
    + vm_compute. reflexivity.
Defined.

Lemma save_hands_over_boundary_witness :
  length (polygonCoordinates Sample.storeInsideCutCorner) = 5 /\
  isCenterInsidePolygon Sample.storeInsideCutCorner = true /\
  exists boundary : list BoundaryPoint,
    handleSavePolygon Sample.storeInsideCutCorner
      = (Sample.storeInsideCutCorner, [ConsoleLog boundary; Toast toastSaved]) /\
    length boundary = 5 /\
    map (fun b => (latitude b, longitude b)) boundary = Sample.cutCorner.
Proof.
  split; [reflexivity | split; [vm_compute; reflexivity |]].
  destruct (save_hands_over_boundary Sample.storeInsideCutCorner)
    as [boundary [Hsave [Hlen [Hback _]]]].
  - reflexivity.
  - vm_compute. reflexivity.
  - exists boundary. repeat split; assumption.
Defined.

(** C4, as stated, fails: two stores with different names and centers, both
    inside the same five vertices, hand over exactly the same on saving, so
    what is handed over holds neither the center nor the store name. *)
Lemma saved_boundary_omits_center_and_name :
  snd (handleSavePolygon Sample.storeInsideCutCorner)
    = snd (handleSavePolygon Sample.otherStore) /\
  In (Toast toastSaved) (snd (handleSavePolygon Sample.storeInsideCutCorner)) /\
  Geometry.pointInPolygon_spec (center Sample.storeInsideCutCorner)
    (polygonCoordinates Sample.storeInsideCutCorner) = true /\
  Geometry.pointInPolygon_spec (center Sample.otherStore)
    (polygonCoordinates Sample.otherStore) = true /\
  center Sample.storeInsideCutCorner <> center Sample.otherStore /\
  storeName Sample.storeInsideCutCorner <> storeName Sample.otherStore.
Proof.
  split; [vm_compute; reflexivity |].
  split; [vm_compute; right; left; reflexivity |].
  split; [vm_compute; reflexivity |].
  split; [vm_compute; reflexivity |].
  split.
  - intros H.
    apply (f_equal (fun c => PrimFloat.eqb (lat c) 51.5078125%float)) in H.
    vm_compute in H. discriminate H.
  - simpl. discriminate.
Qed.

Lemma save_needs_five_points_witness :
  length (polygonCoordinates Sample.fourPoints) <> 5 /\
  isCenterInsidePolygon Sample.fourPoints = false /\
  handleSavePolygon Sample.fourPoints
    = (Sample.fourPoints, [Toast toastSetFivePoints]) /\
  snd (handleSavePolygon Sample.fourPoints) <> [Toast toastCenterOutside].
Proof.
  assert (Hlen : length (polygonCoordinates Sample.fourPoints) <> 5)
    by (simpl; lia).
  assert (Hout : isCenterInsidePolygon Sample.fourPoints = false)
    by (vm_compute; reflexivity).
  split; [exact Hlen | split; [exact Hout | split]].
  - exact (proj1 (save_needs_five_points Sample.fourPoints) Hlen).
  - exact (proj1 (proj2 (save_needs_five_points Sample.fourPoints)) Hlen Hout).
Defined.

Lemma fewer_than_three_vertices_witness :
  length (polygonCoordinates Sample.twoPoints) < 3 /\
  Leaflet.contains (Leaflet.getBounds (polygonCoordinates Sample.twoPoints))
                   (center Sample.twoPoints) = true /\
  isCenterInsidePolygon Sample.twoPoints = false.
Proof.
  split; [simpl; lia | split; [vm_compute; reflexivity |]].
  apply (fewer_than_three_vertices_not_inside Sample.twoPoints).
  simpl. lia.
Defined.

Lemma undo_then_click_restores_witness :
  polygonCoordinates Sample.storeInsideCutCorner
    = [ (51.5, -0.125); (51.53125, -0.125); (51.53125, -0.1171875);
        (51.5078125, -0.09375) ]%float
      ++ [(51.5, -0.09375)%float] /\
  polygonCoordinates (handleUndoLastPoint Sample.storeInsideCutCorner)
    = [ (51.5, -0.125); (51.53125, -0.125); (51.53125, -0.1171875);
        (51.5078125, -0.09375) ]%float /\
  Js.le (Sample.meridianGap {| lat := 51.5; lng := -0.09375 |}%float
           (center Sample.storeInsideCutCorner))
        (radiusLimit Sample.storeInsideCutCorner) = true /\
  MapClickHandler_click Sample.meridianGap
    {| lat := 51.5; lng := -0.09375 |}%float
    (handleUndoLastPoint Sample.storeInsideCutCorner)
    = (Sample.storeInsideCutCorner, []).
Proof.
  split; [reflexivity | split; [reflexivity | split; [vm_compute; reflexivity |]]].
  apply (undo_then_click_restores Sample.meridianGap
           Sample.storeInsideCutCorner
           {| lat := 51.5; lng := -0.09375 |}%float
           [ (51.5, -0.125); (51.53125, -0.125); (51.53125, -0.1171875);
             (51.5078125, -0.09375) ]%float).
  - reflexivity.
  - simpl. lia.
  - vm_compute. reflexivity.
Defined.

(** C6, as stated, fails: the store is clicked (accepted, it is 0 m from
    itself), then the latitude input is emptied, which moves the center to
    latitude 0.  With center and radius left alone from then on, undoing and
    clicking the same point again is refused as outside the boundary, and
    the polygon stays empty. *)
Lemma undo_then_click_refused_after_center_moved :
  polygonCoordinates Sample.movedStore
    = [(lat defaultCoordinates, lng defaultCoordinates)] /\
  MapClickHandler_click Sample.meridianGap defaultCoordinates
    (handleUndoLastPoint Sample.movedStore)
    = (handleUndoLastPoint Sample.movedStore, [Toast toastOutsideBoundary]) /\
  polygonCoordinates
    (fst (MapClickHandler_click Sample.meridianGap defaultCoordinates
            (handleUndoLastPoint Sample.movedStore)))
    <> polygonCoordinates Sample.movedStore.
Proof.
  split; [vm_compute; reflexivity | split; [vm_compute; reflexivity |]].
  vm_compute. discriminate.
Qed.

(** C1 fails on the code: the cut-corner pentagon is a simple polygon, all of
    it on the side [lat + lng <= 51.4140625] of a line, and the store lies
    strictly on the other side, so outside the polygon (ray casting agrees);
    yet the containment test of the component accepts it, for it only looks
    at the bounding box, and the boundary is saved. *)
Theorem bounding_box_admits_store_outside_polygon :
  length (polygonCoordinates Sample.storeInCutCorner) = 5 /\
  Geometry.hasCrossingEdges (polygonCoordinates Sample.storeInCutCorner) = false /\
  Geometry.allBelowLine 51.4140625%float
    (polygonCoordinates Sample.storeInCutCorner) = true /\
  PrimFloat.ltb 51.4140625%float
    (lat (center Sample.storeInCutCorner) + lng (center Sample.storeInCutCorner))
    = true /\
  Geometry.pointInPolygon_spec (center Sample.storeInCutCorner)
    (polygonCoordinates Sample.storeInCutCorner) = false /\
  isCenterInsidePolygon Sample.storeInCutCorner = true /\
  snd (handleSavePolygon Sample.storeInCutCorner)
    = [ConsoleLog (map (fun t => {| latitude := fst t; longitude := snd t |})
                       Sample.cutCorner);
       Toast toastSaved].
Proof.
  repeat split; vm_compute; reflexivity.
Qed.

(** C10. Saving looks at the number of vertices and at the containment test
    only: five clicks on the store itself (one point five times) are saved,
    and so is a ring whose edges cross. *)
Theorem save_accepts_repeated_and_crossing :
  (exists s : AppState,
     length (polygonCoordinates s) = 5 /\
     ~ NoDup (polygonCoordinates s) /\
     isCenterInsidePolygon s = true /\
     handleSavePolygon s =
       (s, [ConsoleLog (map (fun t => {| latitude := fst t; longitude := snd t |})
                            (polygonCoordinates s));
            Toast toastSaved])) /\
  (exists s : AppState,
     length (polygonCoordinates s) = 5 /\
     Geometry.hasCrossingEdges (polygonCoordinates s) = true /\
     isCenterInsidePolygon s = true /\
     handleSavePolygon s =
       (s, [ConsoleLog (map (fun t => {| latitude := fst t; longitude := snd t |})
                            (polygonCoordinates s));
            Toast toastSaved])).
Proof.
  split.
  - exists Sample.fiveTimesTheStore.
    split; [reflexivity | split; [| split]].
    + intros Hnd. inversion Hnd as [| v rest Hnotin _]. apply Hnotin.
      left. reflexivity.
    + vm_compute. reflexivity.
    + apply save_succeeds; [reflexivity | vm_compute; reflexivity].
  - exists Sample.bowtie.
    split; [reflexivity | split; [| split]].
    + vm_compute. reflexivity.
    + vm_compute. reflexivity.
    + apply save_succeeds; [reflexivity | vm_compute; reflexivity].
Qed.

(** * Further properties of the handlers *)

(** ** The order of JavaScript numbers *)

Lemma SFleb_trans (x y z : spec_float) :
  SFleb x y = true -> SFleb y z = true -> SFleb x z = true.
Proof.
  unfold SFleb.
  destruct x as [sx| sx| |sx mx ex], y as [sy| sy| |sy my ey],
           z as [sz| sz| |sz mz ez]; simpl;
    try discriminate; try reflexivity;
    try (destruct sx; simpl; try discriminate; try reflexivity);
    try (destruct sy; simpl; try discriminate; try reflexivity);
    try (destruct sz; simpl; try discriminate; try reflexivity).
  all: change (Pos.compare_cont Eq mx my) with (Pos.compare mx my);
       change (Pos.compare_cont Eq my mz) with (Pos.compare my mz);
       change (Pos.compare_cont Eq mx mz) with (Pos.compare mx mz).
  all: destruct (Z.compare_spec ex ey), (Z.compare_spec ey ez),
         (Z.compare_spec ex ez); simpl; try discriminate; try reflexivity;
         try lia.
  all: destruct (Pos.compare_spec mx my), (Pos.compare_spec my mz),
         (Pos.compare_spec mx mz); simpl; try discriminate; try reflexivity;
         try lia.
Qed.

Lemma le_trans (x y z : Js.number) :
  Js.le x y = true -> Js.le y z = true -> Js.le x z = true.
Proof. unfold Js.le. rewrite !leb_spec. apply SFleb_trans. Qed.

Lemma le_refl (x : Js.number) : is_nan x = false -> Js.le x x = true.
Proof.
  intros Hx. destruct (not_nan_comparable x x Hx Hx) as [c Hc].
  unfold Js.le. rewrite leb_spec. unfold SFleb.
  pose proof (SFcompare_antisym (Prim2SF x) (Prim2SF x)) as Ha.
  rewrite Hc in *. simpl in Ha. destruct c; try reflexivity.
  injection Ha as Ha. discriminate.
Qed.

Lemma lt_le (x y : Js.number) : PrimFloat.ltb x y = true -> Js.le x y = true.
Proof.
  unfold Js.le. rewrite ltb_spec, leb_spec. unfold SFltb, SFleb.
  destruct (SFcompare (Prim2SF x) (Prim2SF y)) as [[ | | ]|]; congruence.
Qed.

Lemma not_lt_le (x y : Js.number) :
  is_nan x = false -> is_nan y = false ->
  PrimFloat.ltb x y = false -> Js.le y x = true.
Proof. intros Hx Hy H. apply (not_gt_le y x Hy Hx). exact H. Qed.

(** [Math.min] of two numbers is one of them, and not above either. *)
Lemma Math_min_spec (x y : Js.number) :
  is_nan x = false -> is_nan y = false ->
  (Js.Math_min x y = x \/ Js.Math_min x y = y) /\
  Js.le (Js.Math_min x y) x = true /\ Js.le (Js.Math_min x y) y = true.
Proof.
  intros Hx Hy. unfold Js.Math_min. rewrite Hx, Hy. simpl.
  destruct (PrimFloat.ltb x y) eqn:Hxy.
  - split; [left; reflexivity |]. split; [apply le_refl, Hx | apply lt_le, Hxy].
  - destruct (PrimFloat.ltb y x) eqn:Hyx.
    + split; [right; reflexivity |].
      split; [apply lt_le, Hyx | apply le_refl, Hy].
    + assert (Js.le x y = true) by (apply not_lt_le; assumption).
      assert (Js.le y x = true) by (apply not_lt_le; assumption).
      destruct (classify x);
        (split; [auto | split; auto using le_refl]).
Qed.

(** [Math.max] of two numbers is one of them, and not below either. *)
Lemma Math_max_spec (x y : Js.number) :
  is_nan x = false -> is_nan y = false ->
  (Js.Math_max x y = x \/ Js.Math_max x y = y) /\
  Js.le x (Js.Math_max x y) = true /\ Js.le y (Js.Math_max x y) = true.
Proof.
  intros Hx Hy. unfold Js.Math_max. rewrite Hx, Hy. simpl.
  destruct (PrimFloat.ltb y x) eqn:Hyx.
  - split; [left; reflexivity |]. split; [apply le_refl, Hx | apply lt_le, Hyx].
  - destruct (PrimFloat.ltb x y) eqn:Hxy.
    + split; [right; reflexivity |].
      split; [apply lt_le, Hxy | apply le_refl, Hy].
    + assert (Js.le x y = true) by (apply not_lt_le; assumption).
      assert (Js.le y x = true) by (apply not_lt_le; assumption).
      destruct (classify x);
        (split; [auto | split; auto using le_refl]).
Qed.

(** ** What the bounds of a polygon are *)

Ltac in_snoc :=
  apply in_or_app; first [left; assumption | right; left; reflexivity].

Lemma getBounds_snoc (l : list LatLngTuple) (v : LatLngTuple) :
  Leaflet.getBounds (l ++ [v])
  = Leaflet.extend (Leaflet.getBounds l) (toLatLng v).
Proof. unfold Leaflet.getBounds. rewrite fold_left_app. reflexivity. Qed.

Lemma allNumbers_in (polygon : list LatLngTuple) (v : LatLngTuple) :
  allNumbers polygon -> In v polygon ->
  is_nan (fst v) = false /\ is_nan (snd v) = false.
Proof. unfold allNumbers. rewrite Forall_forall. auto. Qed.

Lemma extend_corners (l : list LatLngTuple) (v : LatLngTuple)
    (sw ne : Coordinates) :
  allNumbers (l ++ [v]) -> cornersOf l sw ne ->
  exists sw' ne',
    Leaflet.extend (Some (sw, ne)) (toLatLng v) = Some (sw', ne') /\
    cornersOf (l ++ [v]) sw' ne'.
Proof.
  intros Hnum (Hswlat & Hswlng & Hnelat & Hnelng & Hall).
  assert (Hv : is_nan (fst v) = false /\ is_nan (snd v) = false)
    by (apply (allNumbers_in (l ++ [v])); [exact Hnum | in_snoc]).
  destruct Hv as [Hv1 Hv2].
  assert (Hl : forall u, In u l ->
                         is_nan (fst u) = false /\ is_nan (snd u) = false)
    by (intros u Hu; apply (allNumbers_in (l ++ [v])); [exact Hnum | in_snoc]).
  destruct Hswlat as (a & Ha & Ea), Hswlng as (b & Hb & Eb),
           Hnelat as (c & Hc & Ec), Hnelng as (d & Hd & Ed).
  destruct (Math_min_spec (fst v) (lat sw)) as (Hm1 & Hm1v & Hm1s);
    [exact Hv1 | rewrite Ea; apply Hl, Ha |].
  destruct (Math_min_spec (snd v) (lng sw)) as (Hm2 & Hm2v & Hm2s);
    [exact Hv2 | rewrite Eb; apply Hl, Hb |].
  destruct (Math_max_spec (fst v) (lat ne)) as (Hx1 & Hx1v & Hx1s);
    [exact Hv1 | rewrite Ec; apply Hl, Hc |].
  destruct (Math_max_spec (snd v) (lng ne)) as (Hx2 & Hx2v & Hx2s);
    [exact Hv2 | rewrite Ed; apply Hl, Hd |].
  simpl. eexists. eexists. split; [reflexivity |].
  unfold cornersOf. simpl.
  split; [destruct Hm1 as [-> | ->]; [exists v | exists a]; split; auto; in_snoc |].
  split; [destruct Hm2 as [-> | ->]; [exists v | exists b]; split; auto; in_snoc |].
  split; [destruct Hx1 as [-> | ->]; [exists v | exists c]; split; auto; in_snoc |].
  split; [destruct Hx2 as [-> | ->]; [exists v | exists d]; split; auto; in_snoc |].
  apply Forall_app. split.
  - rewrite Forall_forall in *. intros u Hu.
    destruct (Hall u Hu) as (H1 & H2 & H3 & H4).
    repeat split; eauto using le_trans.
  - constructor; [| constructor]. repeat split; assumption.
Qed.

(** The bounds of a polygon of numbers are its least and greatest latitude
    and longitude. *)
Lemma getBounds_corners (polygon : list LatLngTuple) :
  polygon <> [] -> allNumbers polygon ->
  exists sw ne,
    Leaflet.getBounds polygon = Some (sw, ne) /\ cornersOf polygon sw ne.
Proof.
  induction polygon as [| v l IH] using rev_ind; [congruence |].
  intros _ Hnum. rewrite getBounds_snoc.
  destruct l as [| u l'].
  - simpl. exists (toLatLng v), (toLatLng v). split; [reflexivity |].
    assert (Hv : is_nan (fst v) = false /\ is_nan (snd v) = false)
      by (apply (allNumbers_in [v]); [exact Hnum | left; reflexivity]).
    destruct Hv as [Hv1 Hv2].
    unfold cornersOf. simpl.
    repeat split; try (exists v; split; [left; reflexivity | reflexivity]).
    constructor; [| constructor]. repeat split; apply le_refl; assumption.
  - destruct IH as (sw & ne & Hb & Hc); [discriminate | |].
    + unfold allNumbers in *. apply Forall_app in Hnum. apply Hnum.
    + rewrite Hb. apply extend_corners; assumption.
Qed.

Lemma contains_corners (polygon : list LatLngTuple) (sw ne p : Coordinates) :
  cornersOf polygon sw ne ->
  Leaflet.contains (Some (sw, ne)) p = true <-> inBoundingBox p polygon.
Proof.
  intros (Hswlat & Hswlng & Hnelat & Hnelng & Hall).
  rewrite Forall_forall in Hall.
  unfold Leaflet.contains, inBoundingBox, Js.ge. rewrite !andb_true_iff.
  destruct Hswlat as (a & Ha & Ea), Hswlng as (b & Hb & Eb),
           Hnelat as (c & Hc & Ec), Hnelng as (d & Hd & Ed).
  split.
  - intros [[[H1 H2] H3] H4]. rewrite Ea in H1. rewrite Ec in H2.
    rewrite Eb in H3. rewrite Ed in H4.
    split; [exists a; auto
           | split; [exists c; auto | split; [exists b; auto | exists d; auto]]].
  - intros ((a' & Ha' & La) & (c' & Hc' & Lc) &
            (b' & Hb' & Lb) & (d' & Hd' & Ld)).
    destruct (Hall a' Ha') as (A1 & _), (Hall c' Hc') as (_ & _ & C3 & _),
             (Hall b' Hb') as (_ & B2 & _), (Hall d' Hd') as (_ & _ & _ & D4).
    repeat split; eauto using le_trans.
Qed.

(** For a polygon of numbers with a vertex, [getBounds(..).contains(p)] says
    whether [p] is in the bounding box. *)
Lemma getBounds_contains_iff (polygon : list LatLngTuple) (p : Coordinates) :
  polygon <> [] -> allNumbers polygon ->
  Leaflet.contains (Leaflet.getBounds polygon) p = true
  <-> inBoundingBox p polygon.
Proof.
  intros Hne Hnum.
  destruct (getBounds_corners polygon Hne Hnum) as (sw & ne & Hb & Hc).
  rewrite Hb. apply contains_corners, Hc.
Qed.

(** From three vertices on the containment test is the test on the bounds. *)
Lemma isCenterInsidePolygon_bounds (s : AppState) :
  3 <= length (polygonCoordinates s) ->
  isCenterInsidePolygon s
  = Leaflet.contains (Leaflet.getBounds (polygonCoordinates s)) (center s).
Proof.
  intros Hlen. unfold isCenterInsidePolygon.
  apply Nat.ltb_ge in Hlen. rewrite Hlen.
  destruct (center s); reflexivity.
Qed.

(** A passing containment test shows at least three vertices. *)
Lemma isCenterInsidePolygon_three (s : AppState) :
  isCenterInsidePolygon s = true -> 3 <= length (polygonCoordinates s).
Proof.
  unfold isCenterInsidePolygon. intros H.
  destruct (length (polygonCoordinates s) <? 3) eqn:E; [discriminate |].
  apply Nat.ltb_ge. exact E.
Qed.

Lemma three_not_empty (polygon : list LatLngTuple) :
  3 <= length polygon -> polygon <> [].
Proof. intros Hlen E. rewrite E in Hlen. simpl in Hlen. lia. Qed.

Lemma inBoundingBox_perm (p : Coordinates) (l1 l2 : list LatLngTuple) :
  Permutation l1 l2 -> inBoundingBox p l1 -> inBoundingBox p l2.
Proof.
  intros Hp ((a & Ha & La) & (b & Hb & Lb) & (c & Hc & Lc) & (d & Hd & Ld)).
  unfold inBoundingBox.
  split; [exists a | split; [exists b | split; [exists c | exists d]]];
    (split; [eapply Permutation_in; eassumption | assumption]).
Qed.

(** ** The containment test as a test on the bounding box *)

(** X1. From three vertices on, all of them numbers, the containment test
    passes exactly when the center has a vertex to its south and one to its
    north, one to its west and one to its east (level counts): it tests the
    bounding box of the vertices, whatever polygon they form. *)
Theorem containment_is_bounding_box (s : AppState) :
  3 <= length (polygonCoordinates s) ->
  allNumbers (polygonCoordinates s) ->
  isCenterInsidePolygon s = true
  <-> inBoundingBox (center s) (polygonCoordinates s).
Proof.
  intros Hlen Hnum.
  rewrite isCenterInsidePolygon_bounds by exact Hlen.
  apply getBounds_contains_iff; [| exact Hnum].
  apply three_not_empty, Hlen.
Qed.

Lemma containment_is_bounding_box_witness :
  3 <= length (polygonCoordinates Sample.storeInCutCorner) /\
  allNumbers (polygonCoordinates Sample.storeInCutCorner) /\
  (isCenterInsidePolygon Sample.storeInCutCorner = true
   <-> inBoundingBox (center Sample.storeInCutCorner)
                     (polygonCoordinates Sample.storeInCutCorner)).
Proof.
  assert (Hlen : 3 <= length (polygonCoordinates Sample.storeInCutCorner))
    by (simpl; lia).
  assert (Hnum : allNumbers (polygonCoordinates Sample.storeInCutCorner))
    by (repeat constructor).
  split; [exact Hlen | split; [exact Hnum |]].
  exact (containment_is_bounding_box Sample.storeInCutCorner Hlen Hnum).
Defined.

(** X2. The containment test does not depend on the order of the vertices:
    reordering a polygon of numbers in any way leaves its answer as it
    was. *)
Theorem containment_ignores_vertex_order (s : AppState)
    (reordered : list LatLngTuple) :
  Permutation (polygonCoordinates s) reordered ->
  allNumbers (polygonCoordinates s) ->
  isCenterInsidePolygon (setPolygonCoordinates reordered s)
  = isCenterInsidePolygon s.
Proof.
  intros Hp Hnum.
  assert (Hnum' : allNumbers reordered)
    by (unfold allNumbers in *; eapply Permutation_Forall; eassumption).
  pose proof (Permutation_length Hp) as Hlen.
  destruct (Nat.lt_ge_cases (length (polygonCoordinates s)) 3) as [Hlt | Hge].
  - unfold isCenterInsidePolygon. simpl. rewrite <- Hlen.
    apply Nat.ltb_lt in Hlt. rewrite Hlt. reflexivity.
  - assert (Hge' : 3 <= length
                          (polygonCoordinates (setPolygonCoordinates reordered s)))
      by (simpl; lia).
    rewrite (isCenterInsidePolygon_bounds _ Hge').
    rewrite (isCenterInsidePolygon_bounds _ Hge). simpl.
    pose proof (getBounds_contains_iff (polygonCoordinates s) (center s)
                  (three_not_empty _ Hge) Hnum) as H1.
    pose proof (getBounds_contains_iff reordered (center s)
                  (three_not_empty _ Hge') Hnum') as H2.
    destruct (Leaflet.contains (Leaflet.getBounds (polygonCoordinates s))
                               (center s)) eqn:E1.
    + apply H2. eapply inBoundingBox_perm; [exact Hp |]. apply H1. reflexivity.
    + destruct (Leaflet.contains (Leaflet.getBounds reordered) (center s))
        eqn:E2; [| reflexivity].
      symmetry. apply H1. eapply inBoundingBox_perm.
      * apply Permutation_sym. exact Hp.
      * apply H2. reflexivity.
Qed.

Lemma containment_ignores_vertex_order_witness :
  Permutation (polygonCoordinates Sample.storeInCutCorner)
              (rev Sample.cutCorner) /\
  isCenterInsidePolygon
    (setPolygonCoordinates (rev Sample.cutCorner) Sample.storeInCutCorner)
  = isCenterInsidePolygon Sample.storeInCutCorner.
Proof.
  assert (Hp : Permutation (polygonCoordinates Sample.storeInCutCorner)
                           (rev Sample.cutCorner))
    by apply Permutation_rev.
  split; [exact Hp |].
  apply (containment_ignores_vertex_order Sample.storeInCutCorner
           (rev Sample.cutCorner) Hp).
  repeat constructor.
Defined.

(** X3. A store placed exactly on a vertex passes the containment test, as
    soon as there are three vertices, all of them numbers. *)
Theorem store_on_a_vertex_passes (s : AppState) (v : LatLngTuple) :
  3 <= length (polygonCoordinates s) ->
  allNumbers (polygonCoordinates s) ->
  In v (polygonCoordinates s) ->
  center s = toLatLng v ->
  isCenterInsidePolygon s = true.
Proof.
  intros Hlen Hnum Hin Hc.
  rewrite isCenterInsidePolygon_bounds by exact Hlen.
  apply getBounds_contains_iff;
    [apply three_not_empty, Hlen | exact Hnum |].
  destruct (allNumbers_in _ _ Hnum Hin) as [H1 H2].
  rewrite Hc. unfold inBoundingBox. simpl.
  repeat split; exists v; (split; [exact Hin | apply le_refl; assumption]).
Qed.

Lemma store_on_a_vertex_passes_witness :
  In (51.53125%float, (-0.1171875)%float)
     (polygonCoordinates Scenario.storeOnVertex) /\
  isCenterInsidePolygon Scenario.storeOnVertex = true.
Proof.
  assert (Hin : In (51.53125%float, (-0.1171875)%float)
                   (polygonCoordinates Scenario.storeOnVertex))
    by (right; right; left; reflexivity).
  split; [exact Hin |].
  apply (store_on_a_vertex_passes Scenario.storeOnVertex
           (51.53125%float, (-0.1171875)%float)).
  - simpl. lia.
  - repeat constructor.
  - exact Hin.
  - reflexivity.
Defined.

(** X4. With 5 vertices, all of them numbers, the bounding box decides the
    save: a center inside the box has its boundary logged and the success
    notice shown, a center outside the box gets the "must be inside the
    polygon boundary" notice and nothing is logged; the session is left as
    it was either way. *)
Theorem save_outcome_by_box (s : AppState) :
  length (polygonCoordinates s) = 5 ->
  allNumbers (polygonCoordinates s) ->
  (inBoundingBox (center s) (polygonCoordinates s) ->
     handleSavePolygon s =
       (s, [ConsoleLog (map (fun t => {| latitude := fst t; longitude := snd t |})
                            (polygonCoordinates s));
            Toast toastSaved])) /\
  (~ inBoundingBox (center s) (polygonCoordinates s) ->
     handleSavePolygon s = (s, [Toast toastCenterOutside])).
Proof.
  intros Hlen Hnum.
  assert (Hge : 3 <= length (polygonCoordinates s)) by lia.
  pose proof (getBounds_contains_iff (polygonCoordinates s) (center s)
                (three_not_empty _ Hge) Hnum) as Hbox.
  rewrite <- isCenterInsidePolygon_bounds in Hbox by exact Hge.
  split; intros H.
  - apply save_succeeds; [exact Hlen | apply Hbox, H].
  - apply save_center_outside; [exact Hlen |].
    destruct (isCenterInsidePolygon s); [| reflexivity].
    exfalso. apply H, Hbox. reflexivity.
Qed.

Lemma save_outcome_by_box_witness :
  handleSavePolygon Sample.storeInCutCorner
    = (Sample.storeInCutCorner,
       [ConsoleLog (map (fun t => {| latitude := fst t; longitude := snd t |})
                        Sample.cutCorner);
        Toast toastSaved]) /\
  handleSavePolygon Scenario.storeNorthOfBox
    = (Scenario.storeNorthOfBox, [Toast toastCenterOutside]).
Proof.
  split.
  - apply (proj1 (save_outcome_by_box Sample.storeInCutCorner eq_refl
                    ltac:(repeat constructor))).
    unfold inBoundingBox. simpl.
    split; [exists (51.5, -0.125)%float
           | split; [exists (51.53125, -0.125)%float
                    | split; [exists (51.5, -0.125)%float
                             | exists (51.5, -0.09375)%float]]];
      (split; [simpl; tauto | vm_compute; reflexivity]).
  - apply (proj2 (save_outcome_by_box Scenario.storeNorthOfBox eq_refl
                    ltac:(repeat constructor))).
    intros (_ & (v & Hin & Hle) & _).
    simpl in Hin.
    repeat (destruct Hin as [<- | Hin]; [vm_compute in Hle; discriminate |]).
    exact Hin.
Defined.

(** ** Clicks, undo and clear together *)

Lemma In_slice_0_minus1 {A : Type} (x : A) (xs : list A) :
  In x (Js.slice_0_minus1 xs) -> In x xs.
Proof.
  unfold Js.slice_0_minus1.
  induction xs as [| a xs IH]; simpl; [tauto |].
  destruct xs as [| b xs]; simpl in *; [tauto |].
  intros [H | H]; [left; exact H | right; apply IH; exact H].
Qed.

Lemma handleSavePolygon_fst (s : AppState) : fst (handleSavePolygon s) = s.
Proof.
  unfold handleSavePolygon.
  destruct (negb _); [reflexivity |]. destruct (negb _); reflexivity.
Qed.

Lemma toLatLng_tuple (latlng : Coordinates) :
  toLatLng (lat latlng, lng latlng) = latlng.
Proof. destruct latlng; reflexivity. Qed.

Lemma handleClearAllPoints_empty (s : AppState) :
  polygonCoordinates s = [] -> handleClearAllPoints s = s.
Proof.
  destruct s as [name c polygon r]. simpl. intros ->. reflexivity.
Qed.

Section HandlersTogether.

Variable distanceTo : Coordinates -> Coordinates -> Js.number.

Local Abbreviation click := (MapClickHandler_click distanceTo).

(** X5. A click does one of two things.  Either (fewer than 5 vertices, and
    the point within the radius limit) it shows nothing and the new polygon
    is the old one with exactly the clicked point appended at the end, the
    center, the radius limit and the store name being as they were.  Or (5
    or more vertices, or the point not within the radius limit) it shows
    one "destructive" notice and the session is as it was.  So it never
    touches the center, the radius limit or the store name, and never
    removes or reorders a vertex. *)
Theorem click_appends_or_refuses (latlng : Coordinates) (s : AppState) :
  (length (polygonCoordinates s) < 5 /\
   Js.le (distanceTo latlng (center s)) (radiusLimit s) = true /\
   snd (click latlng s) = [] /\
   polygonCoordinates (fst (click latlng s))
     = polygonCoordinates s ++ [(lat latlng, lng latlng)] /\
   center (fst (click latlng s)) = center s /\
   radiusLimit (fst (click latlng s)) = radiusLimit s /\
   storeName (fst (click latlng s)) = storeName s)
  \/
  ((5 <= length (polygonCoordinates s) \/
    Js.le (distanceTo latlng (center s)) (radiusLimit s) = false) /\
   exists t : ToastMessage,
     variant t = Some "destructive"%string /\
     click latlng s = (s, [Toast t])).
Proof.
  destruct (Nat.lt_ge_cases (length (polygonCoordinates s)) 5) as [Hlt | Hge].
  - destruct (Js.le (distanceTo latlng (center s)) (radiusLimit s)) eqn:Hle.
    + left. split; [exact Hlt | split; [reflexivity |]].
      rewrite click_accepted by assumption.
      simpl. repeat split; reflexivity.
    + right. split; [right; reflexivity |].
      exists toastOutsideBoundary. split; [reflexivity |].
      apply click_outside; assumption.
  - right. split; [left; exact Hge |].
    exists toastOnlyFivePoints. split; [reflexivity |].
    apply click_too_many. exact Hge.
Qed.

(** X6. Undo takes back an accepted click: after a click that was accepted,
    "Undo Last Point" gives the session exactly as it was before the
    click. *)
Theorem undo_reverts_accepted_click (latlng : Coordinates) (s : AppState) :
  length (polygonCoordinates s) < 5 ->
  Js.le (distanceTo latlng (center s)) (radiusLimit s) = true ->
  handleUndoLastPoint (fst (click latlng s)) = s.
Proof.
  intros Hlen Hnear.
  rewrite (click_accepted distanceTo latlng s Hlen Hnear). simpl fst.
  unfold handleUndoLastPoint. simpl polygonCoordinates.
  rewrite slice_0_minus1_snoc.
  destruct s; reflexivity.
Qed.

(** X7. The advice of the "only 5 points" notice works: with 5 vertices a
    click within the radius limit is refused with that notice, and after
    "Undo Last Point" the same click is accepted and takes the place of the
    vertex that was last. *)
Theorem undo_makes_room (latlng : Coordinates) (s : AppState) :
  length (polygonCoordinates s) = 5 ->
  Js.le (distanceTo latlng (center s)) (radiusLimit s) = true ->
  click latlng s = (s, [Toast toastOnlyFivePoints]) /\
  click latlng (handleUndoLastPoint s) =
    (setPolygonCoordinates
       (Js.slice_0_minus1 (polygonCoordinates s) ++ [(lat latlng, lng latlng)])
       s, []).
Proof.
  intros Hlen Hnear. split.
  - apply click_too_many. lia.
  - rewrite click_accepted.
    + reflexivity.
    + simpl. rewrite slice_0_minus1_length. lia.
    + exact Hnear.
Qed.

(** X8. "Undo Last Point" pressed at least as many times as there are
    vertices does what "Clear All Points" does; on an empty polygon it
    changes nothing. *)
Theorem repeated_undo_is_clear (n : nat) (s : AppState) :
  length (polygonCoordinates s) <= n ->
  run distanceTo (repeat UndoClicked n) s = handleClearAllPoints s.
Proof.
  revert s. induction n as [| n IH]; intros s Hlen.
  - simpl. symmetry. apply handleClearAllPoints_empty.
    destruct (polygonCoordinates s); [reflexivity | simpl in Hlen; lia].
  - simpl repeat. rewrite run_cons. unfold step. simpl handle. simpl fst.
    rewrite IH.
    + reflexivity.
    + simpl. rewrite slice_0_minus1_length. lia.
Qed.

(** A click appends the clicked point or leaves the session as it was. *)
Lemma click_cases (latlng : Coordinates) (s : AppState) :
  fst (click latlng s)
    = setPolygonCoordinates
        (polygonCoordinates s ++ [(lat latlng, lng latlng)]) s /\
  length (polygonCoordinates s) < 5 /\
  Js.le (distanceTo latlng (center s)) (radiusLimit s) = true
  \/ fst (click latlng s) = s.
Proof.
  destruct (Nat.lt_ge_cases (length (polygonCoordinates s)) 5) as [Hlt | Hge].
  - destruct (Js.le (distanceTo latlng (center s)) (radiusLimit s)) eqn:Hle.
    + left. rewrite click_accepted by assumption. auto.
    + right. rewrite click_outside by assumption. reflexivity.
  - right. rewrite click_too_many by assumption. reflexivity.
Qed.

(** A step adds no vertex but the clicked point. *)
Lemma step_vertices_from_click (e : Event) (s : AppState) (v : LatLngTuple) :
  In v (polygonCoordinates (step distanceTo e s)) ->
  In v (polygonCoordinates s) \/ In v (clickedPoints [e]).
Proof.
  destruct e; unfold step; simpl; auto.
  - destruct (click_cases latlng s) as [[E _] | E]; rewrite E; simpl; auto.
    intros H. apply in_app_or in H. destruct H as [H | H]; auto.
  - rewrite handleSavePolygon_fst. auto.
  - intros H. left. apply In_slice_0_minus1, H.
Qed.

(** X9. Vertices only come from clicks: whatever the events, every vertex of
    the polygon they lead to was a vertex at the start or is a point that
    was clicked on the map in between. *)
Theorem vertices_come_from_clicks (events : list Event) (s : AppState)
    (v : LatLngTuple) :
  In v (polygonCoordinates (run distanceTo events s)) ->
  In v (polygonCoordinates s) \/ In v (clickedPoints events).
Proof.
  revert s. induction events as [| e rest IH]; intros s Hin.
  - left. exact Hin.
  - rewrite run_cons in Hin. apply IH in Hin.
    destruct Hin as [Hin | Hin].
    + apply step_vertices_from_click in Hin.
      destruct Hin as [Hin | Hin]; [left; exact Hin |].
      right. unfold clickedPoints in *. simpl flat_map in *.
      rewrite app_nil_r in Hin. apply in_or_app. left. exact Hin.
    + right. unfold clickedPoints in *. simpl flat_map.
      apply in_or_app. right. exact Hin.
Qed.

(** A step that edits neither the center nor the radius limit keeps both,
    and keeps every vertex within the radius limit. *)
Lemma step_keeps_within_radius (e : Event) (s : AppState) :
  keepsCenterAndRadius e = true ->
  allWithinRadius distanceTo s ->
  center (step distanceTo e s) = center s /\
  radiusLimit (step distanceTo e s) = radiusLimit s /\
  allWithinRadius distanceTo (step distanceTo e s).
Proof.
  intros Hkeep Hall. unfold allWithinRadius in *.
  destruct e; try discriminate Hkeep; unfold step; simpl.
  - destruct (click_cases latlng s) as [(E & _ & Hle) | E]; rewrite E; simpl;
      [| auto].
    split; [reflexivity | split; [reflexivity |]].
    apply Forall_app. split; [exact Hall |].
    constructor; [| constructor]. rewrite toLatLng_tuple. exact Hle.
  - rewrite handleSavePolygon_fst. auto.
  - split; [reflexivity | split; [reflexivity |]].
    rewrite Forall_forall in *. intros v Hv.
    apply Hall, In_slice_0_minus1, Hv.
  - split; [reflexivity | split; [reflexivity | constructor]].
  - auto.
Qed.

(** X10. The radius limit gates every vertex while center and radius limit
    are left alone: if all vertices are within the radius limit of the
    center (as in an empty polygon), then after any events that edit
    neither the center nor the radius limit, the two are unchanged and all
    vertices are still within the radius limit of the center. *)
Theorem vertices_stay_within_radius (events : list Event) (s : AppState) :
  forallb keepsCenterAndRadius events = true ->
  allWithinRadius distanceTo s ->
  center (run distanceTo events s) = center s /\
  radiusLimit (run distanceTo events s) = radiusLimit s /\
  allWithinRadius distanceTo (run distanceTo events s).
Proof.
  revert s. induction events as [| e rest IH]; intros s Hkeep Hall.
  - simpl. auto.
  - simpl in Hkeep. apply andb_true_iff in Hkeep. destruct Hkeep as [He Hrest].
    rewrite run_cons.
    destruct (step_keeps_within_radius e s He Hall) as (Hc & Hr & Hall').
    destruct (IH (step distanceTo e s) Hrest Hall') as (Hc' & Hr' & Hall'').
    split; [congruence | split; [congruence | exact Hall'']].
Qed.

(** X11. Saving only observes: taking the "Save" clicks out of any sequence
    of events leads to the same session. *)
Theorem save_clicks_do_not_matter (events : list Event) (s : AppState) :
  run distanceTo
      (filter (fun e => match e with SaveClicked => false | _ => true end)
              events) s
  = run distanceTo events s.
Proof.
  revert s. induction events as [| e rest IH]; intros s; [reflexivity |].
  destruct e; simpl filter; rewrite ?run_cons; try apply IH.
  rewrite IH. unfold step. simpl handle.
  rewrite handleSavePolygon_fst. reflexivity.
Qed.

(** X12. Another accepted vertex never spoils the containment test: if the
    center passes and a click is accepted (all vertices being numbers), the
    center passes with the longer polygon too. *)
Theorem accepted_click_keeps_containment (latlng : Coordinates)
    (s : AppState) :
  length (polygonCoordinates s) < 5 ->
  Js.le (distanceTo latlng (center s)) (radiusLimit s) = true ->
  allNumbers (polygonCoordinates s ++ [(lat latlng, lng latlng)]) ->
  isCenterInsidePolygon s = true ->
  isCenterInsidePolygon (fst (click latlng s)) = true.
Proof.
  intros Hlen Hnear Hnum Hin.
  rewrite click_accepted by assumption. simpl fst.
  pose proof (isCenterInsidePolygon_three s Hin) as Hge.
  assert (Hnum0 : allNumbers (polygonCoordinates s))
    by (unfold allNumbers in *; apply Forall_app in Hnum; apply Hnum).
  rewrite isCenterInsidePolygon_bounds in Hin by exact Hge.
  apply (getBounds_contains_iff _ _ (three_not_empty _ Hge) Hnum0) in Hin.
  rewrite isCenterInsidePolygon_bounds
    by (simpl; rewrite length_app; simpl; lia).
  simpl.
  apply getBounds_contains_iff; [| exact Hnum |].
  - intros E. apply app_eq_nil in E. destruct E as [_ E]. discriminate E.
  - destruct Hin as ((a & Ha & La) & (b & Hb & Lb) &
                     (c & Hc & Lc) & (d & Hd & Ld)).
    unfold inBoundingBox.
    split; [exists a | split; [exists b | split; [exists c | exists d]]];
      (split; [apply in_or_app; left; assumption | assumption]).
Qed.

End HandlersTogether.

(** X13. The latitude and longitude inputs are independent: each sets its
    own coordinate of the center (0 for an emptied input) and keeps the
    other, so the two edits give the same session in either order, with
    both coordinates as typed. *)
Theorem center_edits_commute (a b : option Js.number) (s : AppState) :
  handleCenterChange KeyLat a (handleCenterChange KeyLng b s)
  = handleCenterChange KeyLng b (handleCenterChange KeyLat a s) /\
  center (handleCenterChange KeyLat a (handleCenterChange KeyLng b s))
  = {| lat := match a with Some x => x | None => 0%float end;
       lng := match b with Some y => y | None => 0%float end |}.
Proof.
  split.
  - unfold handleCenterChange, setCenter. simpl. reflexivity.
  - unfold handleCenterChange, setCenter. simpl. reflexivity.
Qed.

(** ** The further properties on sample sessions *)

Lemma undo_reverts_accepted_click_witness :
  length (polygonCoordinates Scenario.threePoints) < 5 /\
  Js.le (Sample.meridianGap Scenario.nearby (center Scenario.threePoints))
        (radiusLimit Scenario.threePoints) = true /\
  polygonCoordinates
    (fst (MapClickHandler_click Sample.meridianGap Scenario.nearby
            Scenario.threePoints))
  = [ (51.484375, -0.140625); (51.515625, -0.109375);
      (51.515625, -0.1328125); (51.5078125, -0.1171875) ]%float /\
  handleUndoLastPoint
    (fst (MapClickHandler_click Sample.meridianGap Scenario.nearby
            Scenario.threePoints))
  = Scenario.threePoints.
Proof.
  assert (Hlen : length (polygonCoordinates Scenario.threePoints) < 5)
    by (simpl; lia).
  assert (Hnear : Js.le (Sample.meridianGap Scenario.nearby
                           (center Scenario.threePoints))
                        (radiusLimit Scenario.threePoints) = true)
    by (vm_compute; reflexivity).
  split; [exact Hlen | split; [exact Hnear | split]].
  - vm_compute. reflexivity.
  - exact (undo_reverts_accepted_click Sample.meridianGap Scenario.nearby
             Scenario.threePoints Hlen Hnear).
Defined.

Lemma undo_makes_room_witness :
  MapClickHandler_click Sample.meridianGap (center Sample.storeInCutCorner)
    Sample.storeInCutCorner
    = (Sample.storeInCutCorner, [Toast toastOnlyFivePoints]) /\
  polygonCoordinates
    (fst (MapClickHandler_click Sample.meridianGap
            (center Sample.storeInCutCorner)
            (handleUndoLastPoint Sample.storeInCutCorner)))
    = [ (51.5, -0.125); (51.53125, -0.125); (51.53125, -0.1171875);
        (51.5078125, -0.09375); (51.5234375, -0.1015625) ]%float.
Proof.
  destruct (undo_makes_room Sample.meridianGap (center Sample.storeInCutCorner)
              Sample.storeInCutCorner) as [Hfull Hroom].
  - reflexivity.
  - vm_compute. reflexivity.
  - split; [exact Hfull |]. rewrite Hroom. reflexivity.
Defined.

Lemma repeated_undo_is_clear_witness :
  length (polygonCoordinates Sample.storeInCutCorner) <= 7 /\
  run Sample.meridianGap (repeat UndoClicked 7) Sample.storeInCutCorner
    = handleClearAllPoints Sample.storeInCutCorner.
Proof.
  assert (Hlen : length (polygonCoordinates Sample.storeInCutCorner) <= 7)
    by (simpl; lia).
  split; [exact Hlen |].
  exact (repeated_undo_is_clear Sample.meridianGap 7 Sample.storeInCutCorner
           Hlen).
Defined.

Lemma vertices_come_from_clicks_witness :
  In (lat defaultCoordinates, lng defaultCoordinates)
     (polygonCoordinates
        (run Sample.meridianGap Scenario.clicksAndUndo initialState)) /\
  (In (lat defaultCoordinates, lng defaultCoordinates)
      (polygonCoordinates initialState) \/
   In (lat defaultCoordinates, lng defaultCoordinates)
      (clickedPoints Scenario.clicksAndUndo)).
Proof.
  assert (Hin : In (lat defaultCoordinates, lng defaultCoordinates)
                   (polygonCoordinates
                      (run Sample.meridianGap Scenario.clicksAndUndo
                           initialState)))
    by (vm_compute; left; reflexivity).
  split; [exact Hin |].
  exact (vertices_come_from_clicks Sample.meridianGap Scenario.clicksAndUndo
           initialState _ Hin).
Defined.

Lemma vertices_stay_within_radius_witness :
  forallb keepsCenterAndRadius Scenario.clicksAndUndo = true /\
  allWithinRadius Sample.meridianGap initialState /\
  polygonCoordinates (run Sample.meridianGap Scenario.clicksAndUndo initialState)
    = [(lat defaultCoordinates, lng defaultCoordinates)] /\
  allWithinRadius Sample.meridianGap
    (run Sample.meridianGap Scenario.clicksAndUndo initialState).
Proof.
  assert (Hkeep : forallb keepsCenterAndRadius Scenario.clicksAndUndo = true)
    by reflexivity.
  assert (Hall : allWithinRadius Sample.meridianGap initialState)
    by constructor.
  split; [exact Hkeep | split; [exact Hall | split]].
  - vm_compute. reflexivity.
  - exact (proj2 (proj2 (vertices_stay_within_radius Sample.meridianGap
                           Scenario.clicksAndUndo initialState Hkeep Hall))).
Defined.

Lemma accepted_click_keeps_containment_witness :
  isCenterInsidePolygon Scenario.threePoints = true /\
  length (polygonCoordinates
            (fst (MapClickHandler_click Sample.meridianGap
                    (center Scenario.threePoints) Scenario.threePoints))) = 4 /\
  isCenterInsidePolygon
    (fst (MapClickHandler_click Sample.meridianGap
            (center Scenario.threePoints) Scenario.threePoints)) = true.
Proof.
  assert (Hin : isCenterInsidePolygon Scenario.threePoints = true)
    by (vm_compute; reflexivity).
  split; [exact Hin | split; [vm_compute; reflexivity |]].
  apply (accepted_click_keeps_containment Sample.meridianGap
           (center Scenario.threePoints) Scenario.threePoints).
  - simpl. lia.
  - vm_compute. reflexivity.
  - simpl. repeat constructor.
  - exact Hin.
Defined.

Lemma click_nan_refused_witness :
  is_nan (radiusLimit Scenario.nanRadius) = true /\
  MapClickHandler_click Sample.meridianGap defaultCoordinates
    Scenario.nanRadius
  = (Scenario.nanRadius, [Toast toastOutsideBoundary]).
Proof.
  assert (Hnan : is_nan (radiusLimit Scenario.nanRadius) = true)
    by (vm_compute; reflexivity).
  split; [exact Hnan |].
  apply (click_nan_refused Sample.meridianGap defaultCoordinates
           Scenario.nanRadius).
  - simpl. lia.
  - right. exact Hnan.
Defined.

Lemma accepted_click_can_be_redone_witness :
  polygonCoordinates
    (fst (MapClickHandler_click Sample.meridianGap Scenario.nearby
            Scenario.threePoints))
  = [ (51.484375, -0.140625); (51.515625, -0.109375);
      (51.515625, -0.1328125); (51.5078125, -0.1171875) ]%float /\
  polygonCoordinates
    (handleUndoLastPoint
       (fst (MapClickHandler_click Sample.meridianGap Scenario.nearby
               Scenario.threePoints)))
  = [ (51.484375, -0.140625); (51.515625, -0.109375);
      (51.515625, -0.1328125) ]%float /\
  MapClickHandler_click Sample.meridianGap Scenario.nearby
    (handleUndoLastPoint
       (fst (MapClickHandler_click Sample.meridianGap Scenario.nearby
               Scenario.threePoints)))
  = (fst (MapClickHandler_click Sample.meridianGap Scenario.nearby
            Scenario.threePoints), []).
Proof.
  split; [vm_compute; reflexivity | split; [vm_compute; reflexivity |]].
  apply (accepted_click_can_be_redone Sample.meridianGap Scenario.nearby
           Scenario.threePoints).
  - simpl. lia.
  - vm_compute. reflexivity.
Defined.
